(** * File-descriptor limit negotiation of the Cloud SQL proxy

    A shallow embedding of [proxy/limits/limits.go] and proofs of the
    properties its specification states about [SetupFDLimits].

    The Go function talks to the kernel through two package-level function
    variables, [syscallGetrlimit] and [syscallSetrlimit], that unit tests
    replace.  The embedding keeps that indirection: the kernel is a record of
    two state transformers over an arbitrary state type, and [SetupFDLimits]
    is a computation in a small state monad whose state holds the kernel and
    the trace of everything the function did to the outside world. *)

From Stdlib Require Import NArith ZArith String List Bool Lia.
From Stdlib Require Import DecimalString.
Import ListNotations.

Local Open Scope string_scope.
Local Open Scope N_scope.

(** ** Data *)

(** Go's [uint64].  [SetupFDLimits] only compares and copies these values; it
    performs no arithmetic on them, so no wrap-around has to be written out. *)
Definition uint64 : Type := N.

(** [syscall.Rlimit]: [struct { Cur uint64; Max uint64 }]. *)
Record Rlimit : Type := mkRlimit { Cur : uint64; Max : uint64 }.

(** The zero value [syscall.Rlimit{}]. *)
Definition Rlimit_zero : Rlimit := {| Cur := 0; Max := 0 |}.

(** The assignment [rlim.Cur = v] on a struct held in a local. *)
Definition set_Cur (rlim : Rlimit) (v : uint64) : Rlimit :=
  {| Cur := v; Max := Max rlim |}.

(** Go's [error] interface: a type with an [Error() string] method. *)
Class error (E : Type) : Type := Error : E -> string.

(** The value [fmt.Errorf] builds when its format has no wrapping verb: an
    error that is nothing but its message. *)
Inductive errorString : Type := mkErrorString (s : string).

#[global] Instance errorString_error : error errorString :=
  fun e => match e with mkErrorString s => s end.

(** ** Formatting *)

Module Fmt.

(** The verb [%d] at a [uint64]. *)
Definition d (n : uint64) : string := NilEmpty.string_of_uint (N.to_uint n).

(** The verb [%v] at a [*syscall.Rlimit]: a pointer to a struct prints as
    an ampersand and the fields in braces. *)
Definition v_Rlimit (r : Rlimit) : string :=
  "&{" ++ d (Cur r) ++ " " ++ d (Max r) ++ "}".

(** The verb [%v] at an [error]: its [Error()] text. *)
Definition v_error {E : Type} `{error E} (e : E) : string := Error e.

End Fmt.

(** ** The kernel behind the two function variables *)

(** [syscallGetrlimit(resource, rlim)] fills [*rlim] and returns an error or
    [nil]; the caller always passes a pointer to a fresh zero struct, so the
    call is a function of the resource and the kernel state that yields the
    contents of [*rlim] afterwards and the error.  [syscallSetrlimit(resource,
    rlim)] reads [*rlim], leaves it as it is, and returns an error or [nil]. *)
Record Kernel (E : Type) : Type := mkKernel {
  kstate : Type;
  syscallGetrlimit : Z -> kstate -> (Rlimit * option E) * kstate;
  syscallSetrlimit : Z -> Rlimit -> kstate -> option E * kstate
}.

Arguments kstate {E} _.
Arguments syscallGetrlimit {E} _ _ _.
Arguments syscallSetrlimit {E} _ _ _ _.

(** The three places of [SetupFDLimits] that enter the kernel: the query on
    line 39, the raise of both limits on line 62 and the raise of the soft
    limit alone on line 69. *)
Inductive CallSite : Type := SiteQuery | SitePrivileged | SiteSoftOnly.

Definition CallSite_eqb (a b : CallSite) : bool :=
  match a, b with
  | SiteQuery, SiteQuery => true
  | SitePrivileged, SitePrivileged => true
  | SiteSoftOnly, SiteSoftOnly => true
  | _, _ => false
  end.

(** What the function does to the outside world, in order. *)
Inductive Event : Type :=
| EvGetrlimit (site : CallSite) (resource : Z)
| EvSetrlimit (site : CallSite) (resource : Z) (rlim : Rlimit)
| EvInfof (msg : string).

Definition is_get (e : Event) : bool :=
  match e with EvGetrlimit _ _ => true | _ => false end.

Definition is_set (e : Event) : bool :=
  match e with EvSetrlimit _ _ _ => true | _ => false end.

Definition at_site (s : CallSite) (e : Event) : bool :=
  match e with
  | EvGetrlimit s' _ | EvSetrlimit s' _ _ => CallSite_eqb s s'
  | EvInfof _ => false
  end.

(** The pairs handed to the set call, oldest first. *)
Fixpoint set_pairs (tr : list Event) : list Rlimit :=
  match tr with
  | [] => []
  | EvSetrlimit _ _ r :: tr' => r :: set_pairs tr'
  | _ :: tr' => set_pairs tr'
  end.

(** The pairs handed to the set call from one call site. *)
Fixpoint set_pairs_at (s : CallSite) (tr : list Event) : list Rlimit :=
  match tr with
  | [] => []
  | EvSetrlimit s' _ r :: tr' =>
      if CallSite_eqb s s' then r :: set_pairs_at s tr' else set_pairs_at s tr'
  | _ :: tr' => set_pairs_at s tr'
  end.

Definition count_gets (tr : list Event) : nat := length (filter is_get tr).
Definition count_sets (tr : list Event) : nat := length (filter is_set tr).
Definition count_at (s : CallSite) (tr : list Event) : nat :=
  length (filter (at_site s) tr).

(** ** The monad of [SetupFDLimits] *)

Section Negotiator.

Context {E : Type} `{error E}.
Variable K : Kernel E.

(** [syscall.RLIMIT_NOFILE], a constant of the platform's [syscall]
    package (7 on Linux, 8 on the BSDs and Darwin). *)
Variable RLIMIT_NOFILE : Z.

Record World : Type := mkWorld { kern : kstate K; trace : list Event }.

Definition M (A : Type) : Type := World -> A * World.

Definition ret {A : Type} (a : A) : M A := fun w => (a, w).

Definition bind {A B : Type} (m : M A) (f : A -> M B) : M B :=
  fun w => let (a, w') := m w in f a w'.

Definition emit (e : Event) : M unit :=
  fun w => (tt, {| kern := kern w; trace := (trace w ++ [e])%list |}).

Definition callGetrlimit (site : CallSite) (resource : Z)
  : M (Rlimit * option E) :=
  fun w =>
    let (res, k') := syscallGetrlimit K resource (kern w) in
    (res,
     {| kern := k';
        trace := (trace w ++ [EvGetrlimit site resource])%list |}).

Definition callSetrlimit (site : CallSite) (resource : Z) (rlim : Rlimit)
  : M (option E) :=
  fun w =>
    let (err, k') := syscallSetrlimit K resource rlim (kern w) in
    (err,
     {| kern := k';
        trace := (trace w ++ [EvSetrlimit site resource rlim])%list |}).

(** [logging.Infof]: the formatted line goes to the injected logger. *)
Definition Infof (msg : string) : M unit := emit (EvInfof msg).

Notation "x <- m ;; k" := (bind m (fun x => k))
  (at level 61, m at next level, right associativity).
Notation "m ;;; k" := (bind m (fun _ => k))
  (at level 61, right associativity).

(** The four format strings of the source, applied to their arguments. *)
Definition msg_query_failed (err : E) : string :=
  "failed to read rlimit for max file descriptors: " ++ Fmt.v_error err.

Definition msg_nothing_to_do (cur wantFDs : uint64) : string :=
  "current FDs rlimit set to " ++ Fmt.d cur ++ ", wanted limit is "
  ++ Fmt.d wantFDs ++ ". Nothing to do here.".

Definition msg_set (rlim : Rlimit) : string :=
  "Rlimits for file descriptors set to {" ++ Fmt.v_Rlimit rlim ++ "}".

Definition msg_raise_failed (rlim : Rlimit) (err : E) : string :=
  "failed to set rlimit {" ++ Fmt.v_Rlimit rlim
  ++ "} for max file descriptors: " ++ Fmt.v_error err.

(** The tail of [SetupFDLimits] from line 68: [rlim] is still the struct
    the query filled. *)
Definition raiseSoftOnly (rlim : Rlimit) (wantFDs : uint64)
  : M (option errorString) :=
  let rlim := set_Cur rlim wantFDs in
  err <- callSetrlimit SiteSoftOnly RLIMIT_NOFILE rlim ;;
  match err with
  | Some err => ret (Some (mkErrorString (msg_raise_failed rlim err)))
  | None => Infof (msg_set rlim) ;;; ret None
  end.

(** [func SetupFDLimits(wantFDs uint64) error]; [None] is [nil]. *)
Definition SetupFDLimits (wantFDs : uint64) : M (option errorString) :=
  res <- callGetrlimit SiteQuery RLIMIT_NOFILE ;;
  let (rlim, err) := res : Rlimit * option E in
  match err with
  | Some err => ret (Some (mkErrorString (msg_query_failed err)))
  | None =>
      (* rlim.Cur >= wantFDs *)
      if wantFDs <=? Cur rlim then
        Infof (msg_nothing_to_do (Cur rlim) wantFDs) ;;; ret None
      (* rlim.Max < wantFDs *)
      else if Max rlim <? wantFDs then
        let rlim2 := {| Cur := wantFDs; Max := wantFDs |} in
        err <- callSetrlimit SitePrivileged RLIMIT_NOFILE rlim2 ;;
        match err with
        | None => Infof (msg_set rlim2) ;;; ret None
        | Some _ => raiseSoftOnly rlim wantFDs
        end
      else raiseSoftOnly rlim wantFDs
  end.

(** One invocation against kernel state [k], from an empty trace. *)
Definition invoke (wantFDs : uint64) (k : kstate K)
  : option errorString * World :=
  SetupFDLimits wantFDs {| kern := k; trace := [] |}.

End Negotiator.

Arguments kern {E K} _.
Arguments trace {E K} _.
Arguments mkWorld {E K} _ _.

(** ** What the specification assumes of the kernel *)

(** The data model's invariant on a [ResourceLimitPair]: the soft limit never
    exceeds the hard limit. *)
Definition well_formed (r : Rlimit) : Prop := Cur r <= Max r.

(** The part of a kernel state the specification talks about: the limit pair
    in force for the file-descriptor resource, and the error, if any, that a
    query of it runs into. *)
Class RlimitView {E : Type} (K : Kernel E) : Type := mkRlimitView {
  limits : kstate K -> Rlimit;
  query_error : kstate K -> option E
}.

(** A kernel whose two operations behave as the specification's "get" and
    "set" on that view: a query reports the pair in force and changes
    nothing; a set call that returns [nil] has installed its argument, and
    one that fails has changed nothing. *)
Record PosixLaws {E : Type} (K : Kernel E) (V : RlimitView K) (resource : Z)
  : Prop := mkPosixLaws {
  get_err : forall k,
    snd (fst (syscallGetrlimit K resource k)) = query_error k;
  get_val : forall k,
    query_error k = None ->
    fst (fst (syscallGetrlimit K resource k)) = limits k;
  get_limits : forall k,
    limits (snd (syscallGetrlimit K resource k)) = limits k;
  get_query : forall k,
    query_error (snd (syscallGetrlimit K resource k)) = query_error k;
  set_ok : forall r k,
    fst (syscallSetrlimit K resource r k) = None ->
    limits (snd (syscallSetrlimit K resource r k)) = r;
  set_fail : forall r k e,
    fst (syscallSetrlimit K resource r k) = Some e ->
    limits (snd (syscallSetrlimit K resource r k)) = limits k;
  set_query : forall r k,
    query_error (snd (syscallSetrlimit K resource r k)) = query_error k
}.

(** ** A simulated kernel

    The stand-in that replaces the two function variables in a test: it keeps
    one limit pair and follows the manual page the source quotes.  An
    unprivileged process may set its soft limit anywhere up to the hard limit
    and may lower the hard limit; a process with [CAP_SYS_RESOURCE] may set
    both freely; a pair whose soft limit exceeds its hard limit is invalid. *)
Module Sim.

(** [syscall.Errno]. *)
Definition Errno : Type := N.

Definition EPERM : Errno := 1.
Definition EFAULT : Errno := 14.
Definition EINVAL : Errno := 22.

(** [Errno.Error()] for the three numbers the stand-in answers with.  Go
    looks a number up in the platform's table of messages and prints
    "errno N" only where the table has no entry; the stand-in carries just
    these three entries of the table, so its text for any other number is
    not Go's. *)
#[global] Instance Errno_error : error Errno :=
  fun e =>
    if e =? EPERM then "operation not permitted"
    else if e =? EFAULT then "bad address"
    else if e =? EINVAL then "invalid argument"
    else "errno " ++ Fmt.d e.

(** [RLIMIT_NOFILE] as Linux numbers it. *)
Definition RLIMIT_NOFILE : Z := 7.

Record state : Type := mkState {
  nofile : Rlimit;
  cap_sys_resource : bool;
  fault : option Errno
}.

Definition getrlimit (resource : Z) (k : state)
  : (Rlimit * option Errno) * state :=
  if (resource =? RLIMIT_NOFILE)%Z then
    match fault k with
    | Some e => ((Rlimit_zero, Some e), k)
    | None => ((nofile k, None), k)
    end
  else ((Rlimit_zero, Some EINVAL), k).

Definition setrlimit (resource : Z) (r : Rlimit) (k : state)
  : option Errno * state :=
  if (resource =? RLIMIT_NOFILE)%Z then
    if Max r <? Cur r then (Some EINVAL, k)
    else if cap_sys_resource k || (Max r <=? Max (nofile k)) then
      (None, {| nofile := r;
                cap_sys_resource := cap_sys_resource k;
                fault := fault k |})
    else (Some EPERM, k)
  else (Some EINVAL, k).

Definition kernel : Kernel Errno :=
  {| kstate := state;
     syscallGetrlimit := getrlimit;
     syscallSetrlimit := setrlimit |}.

#[global] Instance view : RlimitView kernel :=
  {| limits := nofile : kstate kernel -> Rlimit;
     query_error := fault : kstate kernel -> option Errno |}.

(** A process without the capability, soft limit 256 and hard limit 1024,
    as in the specification's scenarios. *)
Definition unprivileged : state :=
  {| nofile := {| Cur := 256; Max := 1024 |};
     cap_sys_resource := false;
     fault := None |}.

Definition privileged : state :=
  {| nofile := {| Cur := 256; Max := 1024 |};
     cap_sys_resource := true;
     fault := None |}.

Definition saturated : state :=
  {| nofile := {| Cur := 1024; Max := 1024 |};
     cap_sys_resource := false;
     fault := None |}.

Definition unreadable : state :=
  {| nofile := {| Cur := 256; Max := 1024 |};
     cap_sys_resource := false;
     fault := Some EINVAL |}.

Definition run (wantFDs : uint64) (k : state)
  : option errorString * World kernel :=
  invoke kernel RLIMIT_NOFILE wantFDs k.

End Sim.

(** ** A scripted stand-in

    The kind of replacement a unit test installs in the two function
    variables: the query reports the pair the stand-in holds, and each set
    call takes its answer from a script, an error to refuse with or [None] to
    accept and store the pair; once the script is used up every set call is
    accepted.  Nothing is validated, so it can refuse and accept in any
    order. *)
Module Scripted.

Record state : Type := mkState {
  pair : Rlimit;
  answers : list (option Sim.Errno)
}.

Definition getrlimit (resource : Z) (k : state)
  : (Rlimit * option Sim.Errno) * state :=
  ((pair k, None), k).

Definition setrlimit (resource : Z) (r : Rlimit) (k : state)
  : option Sim.Errno * state :=
  match answers k with
  | Some e :: rest => (Some e, {| pair := pair k; answers := rest |})
  | None :: rest => (None, {| pair := r; answers := rest |})
  | [] => (None, {| pair := r; answers := [] |})
  end.

Definition kernel : Kernel Sim.Errno :=
  {| kstate := state;
     syscallGetrlimit := getrlimit;
     syscallSetrlimit := setrlimit |}.

Definition view : RlimitView kernel :=
  {| limits := pair : kstate kernel -> Rlimit;
     query_error := (fun _ => None) : kstate kernel -> option Sim.Errno |}.

Definition run (wantFDs : uint64) (k : state)
  : option errorString * World kernel :=
  invoke kernel Sim.RLIMIT_NOFILE wantFDs k.

End Scripted.

(** ** Further observations on a trace *)

Definition is_log (e : Event) : bool :=
  match e with EvInfof _ => true | _ => false end.

Definition count_logs (tr : list Event) : nat := length (filter is_log tr).

(** A kernel that validates what it is handed: a pair whose soft value
    exceeds its hard value is refused, as [setrlimit(2)] does with [EINVAL]. *)
Definition RejectsInvalid {E : Type} (K : Kernel E) (resource : Z) : Prop :=
  forall r k, Max r < Cur r -> fst (syscallSetrlimit K resource r k) <> None.

(** * Properties *)

(** ** The scenarios of the specification, run on the simulated kernel *)

Example scenario_soft_raise :
  Sim.run 500 Sim.unprivileged =
  (None,
   mkWorld
     (Sim.mkState {| Cur := 500; Max := 1024 |} false None : kstate Sim.kernel)
     [EvGetrlimit SiteQuery 7;
      EvSetrlimit SiteSoftOnly 7 {| Cur := 500; Max := 1024 |};
      EvInfof "Rlimits for file descriptors set to {&{500 1024}}"]).
Proof. vm_compute. reflexivity. Qed.

Example scenario_raise_denied :
  Sim.run 2048 Sim.unprivileged =
  (Some (mkErrorString
     "failed to set rlimit {&{2048 1024}} for max file descriptors: invalid argument"),
   mkWorld (Sim.unprivileged : kstate Sim.kernel)
     [EvGetrlimit SiteQuery 7;
      EvSetrlimit SitePrivileged 7 {| Cur := 2048; Max := 2048 |};
      EvSetrlimit SiteSoftOnly 7 {| Cur := 2048; Max := 1024 |}]).
Proof. vm_compute. reflexivity. Qed.

Example scenario_privileged_raise :
  Sim.run 2048 Sim.privileged =
  (None,
   mkWorld
     (Sim.mkState {| Cur := 2048; Max := 2048 |} true None : kstate Sim.kernel)
     [EvGetrlimit SiteQuery 7;
      EvSetrlimit SitePrivileged 7 {| Cur := 2048; Max := 2048 |};
      EvInfof "Rlimits for file descriptors set to {&{2048 2048}}"]).
Proof. vm_compute. reflexivity. Qed.

Example scenario_nothing_to_do :
  Sim.run 500 Sim.saturated =
  (None,
   mkWorld (Sim.saturated : kstate Sim.kernel)
     [EvGetrlimit SiteQuery 7;
      EvInfof "current FDs rlimit set to 1024, wanted limit is 500. Nothing to do here."]).
Proof. vm_compute. reflexivity. Qed.

Example scenario_query_fails :
  Sim.run 500 Sim.unreadable =
  (Some (mkErrorString
     "failed to read rlimit for max file descriptors: invalid argument"),
   mkWorld (Sim.unreadable : kstate Sim.kernel) [EvGetrlimit SiteQuery 7]).
Proof. vm_compute. reflexivity. Qed.

Lemma append_assoc (a b c : string) : (a ++ b) ++ c = a ++ (b ++ c).
Proof. induction a as [|ch a IH]; cbn; [reflexivity | now rewrite IH]. Qed.

(** The text of the raise-failure error, written out. *)
Lemma raise_failed_text {E : Type} `{error E} (r : Rlimit) (e : E) :
  msg_raise_failed r e =
  "failed to set rlimit {&{" ++ Fmt.d (Cur r) ++ " " ++ Fmt.d (Max r)
  ++ "}} for max file descriptors: " ++ Error e.
Proof.
  unfold msg_raise_failed, Fmt.v_Rlimit, Fmt.v_error.
  rewrite !append_assoc. reflexivity.
Qed.

(** The simulated kernel is a kernel in the specification's sense. *)
Lemma Sim_laws : PosixLaws Sim.kernel Sim.view Sim.RLIMIT_NOFILE.
Proof.
  split; cbn; unfold Sim.getrlimit, Sim.setrlimit; cbn.
  - intros [n c [e|]]; reflexivity.
  - intros [n c f] Hk. cbn in *. rewrite Hk. reflexivity.
  - intros [n c [e|]]; reflexivity.
  - intros [n c [e|]]; reflexivity.
  - intros r [n c f]. cbn.
    destruct (Max r <? Cur r); [discriminate|].
    destruct (c || (Max r <=? Max n)); [reflexivity | discriminate].
  - intros r [n c f] e. cbn.
    destruct (Max r <? Cur r); [reflexivity|].
    destruct (c || (Max r <=? Max n)); [discriminate | reflexivity].
  - intros r [n c f]. cbn.
    destruct (Max r <? Cur r); [reflexivity|].
    destruct (c || (Max r <=? Max n)); reflexivity.
Qed.

(** ** The paths through [SetupFDLimits] *)

Section Paths.

Context {E : Type} `{error E}.
Variable K : Kernel E.
Variable NOFILE : Z.

Local Abbreviation get := (syscallGetrlimit K NOFILE).
Local Abbreviation set := (syscallSetrlimit K NOFILE).
Local Abbreviation run := (invoke K NOFILE).

Ltac open_run :=
  unfold invoke, SetupFDLimits, raiseSoftOnly, bind,
    callGetrlimit, callSetrlimit, Infof, emit, ret, set_Cur; cbn.

Lemma path_query_failed wantFDs k r e k1 :
  get k = ((r, Some e), k1) ->
  run wantFDs k =
  (Some (mkErrorString (msg_query_failed e)),
   mkWorld k1 [EvGetrlimit SiteQuery NOFILE]).
Proof. intros Hg. open_run. rewrite Hg. reflexivity. Qed.

Lemma path_nothing_to_do wantFDs k r k1 :
  get k = ((r, None), k1) ->
  wantFDs <= Cur r ->
  run wantFDs k =
  (None,
   mkWorld k1 [EvGetrlimit SiteQuery NOFILE;
               EvInfof (msg_nothing_to_do (Cur r) wantFDs)]).
Proof.
  intros Hg Hle. open_run. rewrite Hg.
  apply N.leb_le in Hle. rewrite Hle. reflexivity.
Qed.

Lemma path_soft_only wantFDs k r k1 err k2 :
  get k = ((r, None), k1) ->
  Cur r < wantFDs ->
  wantFDs <= Max r ->
  set {| Cur := wantFDs; Max := Max r |} k1 = (err, k2) ->
  run wantFDs k =
  (match err with
   | Some e =>
       Some (mkErrorString
               (msg_raise_failed {| Cur := wantFDs; Max := Max r |} e))
   | None => None
   end,
   mkWorld k2
     ([EvGetrlimit SiteQuery NOFILE;
       EvSetrlimit SiteSoftOnly NOFILE {| Cur := wantFDs; Max := Max r |}]
      ++ match err with
         | Some _ => []
         | None => [EvInfof (msg_set {| Cur := wantFDs; Max := Max r |})]
         end)).
Proof.
  intros Hg Hlt Hle Hs. open_run. rewrite Hg.
  apply N.leb_gt in Hlt. rewrite Hlt.
  apply N.ltb_ge in Hle. rewrite Hle.
  cbn. rewrite Hs. destruct err; reflexivity.
Qed.

Lemma path_privileged_ok wantFDs k r k1 k2 :
  get k = ((r, None), k1) ->
  Cur r < wantFDs ->
  Max r < wantFDs ->
  set {| Cur := wantFDs; Max := wantFDs |} k1 = (None, k2) ->
  run wantFDs k =
  (None,
   mkWorld k2
     [EvGetrlimit SiteQuery NOFILE;
      EvSetrlimit SitePrivileged NOFILE {| Cur := wantFDs; Max := wantFDs |};
      EvInfof (msg_set {| Cur := wantFDs; Max := wantFDs |})]).
Proof.
  intros Hg Hlt Hmax Hs. open_run. rewrite Hg.
  apply N.leb_gt in Hlt. rewrite Hlt.
  apply N.ltb_lt in Hmax. rewrite Hmax.
  cbn. rewrite Hs. reflexivity.
Qed.

Lemma path_privileged_denied wantFDs k r k1 e1 k2 err k3 :
  get k = ((r, None), k1) ->
  Cur r < wantFDs ->
  Max r < wantFDs ->
  set {| Cur := wantFDs; Max := wantFDs |} k1 = (Some e1, k2) ->
  set {| Cur := wantFDs; Max := Max r |} k2 = (err, k3) ->
  run wantFDs k =
  (match err with
   | Some e =>
       Some (mkErrorString
               (msg_raise_failed {| Cur := wantFDs; Max := Max r |} e))
   | None => None
   end,
   mkWorld k3
     ([EvGetrlimit SiteQuery NOFILE;
       EvSetrlimit SitePrivileged NOFILE {| Cur := wantFDs; Max := wantFDs |};
       EvSetrlimit SiteSoftOnly NOFILE {| Cur := wantFDs; Max := Max r |}]
      ++ match err with
         | Some _ => []
         | None => [EvInfof (msg_set {| Cur := wantFDs; Max := Max r |})]
         end)).
Proof.
  intros Hg Hlt Hmax Hs1 Hs2. open_run. rewrite Hg.
  apply N.leb_gt in Hlt. rewrite Hlt.
  apply N.ltb_lt in Hmax. rewrite Hmax.
  cbn. rewrite Hs1. cbn. rewrite Hs2. destruct err; reflexivity.
Qed.

End Paths.

(** ** The claims of the specification *)

Section Claims.

Context {E : Type} `{error E}.
Variable K : Kernel E.
Variable NOFILE : Z.
Context {V : RlimitView K}.
Hypothesis Laws : PosixLaws K V NOFILE.

Local Abbreviation get := (syscallGetrlimit K NOFILE).
Local Abbreviation set := (syscallSetrlimit K NOFILE).
Local Abbreviation run := (invoke K NOFILE).

(** What the laws say about a query that succeeded. *)
Lemma query_facts k r k1 :
  get k = ((r, None), k1) ->
  query_error k = None /\ r = limits k /\
  limits k1 = limits k /\ query_error k1 = None.
Proof.
  intros Hg.
  assert (Hq : query_error k = None).
  { rewrite <- (get_err K V NOFILE Laws k), Hg. reflexivity. }
  pose proof (get_val K V NOFILE Laws k Hq) as Hv.
  pose proof (get_limits K V NOFILE Laws k) as Hl.
  pose proof (get_query K V NOFILE Laws k) as Hk.
  rewrite Hg in Hv, Hl, Hk. cbn in Hv, Hl, Hk.
  rewrite Hq in Hk. auto.
Qed.

Lemma query_succeeds k :
  query_error k = None ->
  get k = ((limits k, None), snd (get k)).
Proof.
  intros Hq.
  pose proof (get_err K V NOFILE Laws k) as He.
  pose proof (get_val K V NOFILE Laws k Hq) as Hv.
  destruct (get k) as [[r e] k1]. cbn in *. congruence.
Qed.

Lemma set_accepted p k1 k2 :
  set p k1 = (None, k2) ->
  limits k2 = p /\ query_error k2 = query_error k1.
Proof.
  intros Hs.
  pose proof (set_ok K V NOFILE Laws p k1) as Ho.
  pose proof (set_query K V NOFILE Laws p k1) as Hq.
  rewrite Hs in Ho, Hq. cbn in Ho, Hq. auto.
Qed.

Lemma set_refused p k1 e k2 :
  set p k1 = (Some e, k2) ->
  limits k2 = limits k1 /\ query_error k2 = query_error k1.
Proof.
  intros Hs.
  pose proof (set_fail K V NOFILE Laws p k1 e) as Hf.
  pose proof (set_query K V NOFILE Laws p k1) as Hq.
  rewrite Hs in Hf, Hq. cbn in Hf, Hq. auto.
Qed.

(** C1.  When the wanted count lies above the queried soft limit and at or
    below the queried hard limit, the run makes exactly one set call: it
    comes from the soft-limit-only site, none comes from the privileged
    site.  If the kernel accepts that call the function returns [nil], the
    soft limit in force is the wanted count and the hard limit is what it
    was. *)
Theorem soft_only_raise_within_ceiling wantFDs k r k1 :
  get k = ((r, None), k1) ->
  Cur r < wantFDs ->
  wantFDs <= Max r ->
  set_pairs_at SitePrivileged (trace (snd (run wantFDs k))) = [] /\
  set_pairs_at SiteSoftOnly (trace (snd (run wantFDs k))) =
    [{| Cur := wantFDs; Max := Max r |}] /\
  set_pairs (trace (snd (run wantFDs k))) =
    [{| Cur := wantFDs; Max := Max r |}] /\
  (fst (set {| Cur := wantFDs; Max := Max r |} k1) = None ->
   fst (run wantFDs k) = None /\
   limits (kern (snd (run wantFDs k))) =
     {| Cur := wantFDs; Max := Max (limits k) |}).
Proof.
  intros Hg Hlt Hle.
  destruct (set {| Cur := wantFDs; Max := Max r |} k1) as [err k2] eqn:Hs.
  rewrite (path_soft_only K NOFILE wantFDs k r k1 err k2 Hg Hlt Hle Hs).
  cbn [fst snd kern trace].
  split; [|split; [|split]]; try (destruct err; reflexivity).
  intros ->.
  destruct (query_facts k r k1 Hg) as (_ & Hr & _ & _).
  destruct (set_accepted _ _ _ Hs) as [Hl _].
  rewrite Hl, Hr. split; reflexivity.
Qed.

(** C2.  When the wanted count is at most the queried soft limit, the
    function returns [nil] after the query alone: no set call is made, the
    kernel is in the state the query left it in, and the limits in force
    are the ones before the call. *)
Theorem satisfied_limit_is_left_alone wantFDs k r k1 :
  get k = ((r, None), k1) ->
  wantFDs <= Cur r ->
  fst (run wantFDs k) = None /\
  set_pairs (trace (snd (run wantFDs k))) = [] /\
  count_sets (trace (snd (run wantFDs k))) = 0%nat /\
  kern (snd (run wantFDs k)) = k1 /\
  limits (kern (snd (run wantFDs k))) = limits k.
Proof.
  intros Hg Hle.
  rewrite (path_nothing_to_do K NOFILE wantFDs k r k1 Hg Hle).
  cbn. repeat split.
  apply (query_facts k r k1 Hg).
Qed.

(** C3.  When the wanted count exceeds the queried hard limit, the set call
    for both limits fails and the set call for the soft limit alone, made
    with the queried hard limit as ceiling, fails too, the function returns
    the error whose text gives the attempted pair and ends in the text of
    the second call's error; the limits in force are the queried ones. *)
Theorem raise_beyond_ceiling_denied wantFDs k r k1 e1 k2 e2 k3 :
  get k = ((r, None), k1) ->
  well_formed r ->
  Max r < wantFDs ->
  set {| Cur := wantFDs; Max := wantFDs |} k1 = (Some e1, k2) ->
  set {| Cur := wantFDs; Max := Max r |} k2 = (Some e2, k3) ->
  fst (run wantFDs k) =
    Some (mkErrorString
      ("failed to set rlimit {&{" ++ Fmt.d wantFDs ++ " " ++ Fmt.d (Max r)
       ++ "}} for max file descriptors: " ++ Error e2)) /\
  set_pairs (trace (snd (run wantFDs k))) =
    [{| Cur := wantFDs; Max := wantFDs |};
     {| Cur := wantFDs; Max := Max r |}] /\
  limits (kern (snd (run wantFDs k))) = r /\
  limits (kern (snd (run wantFDs k))) = limits k.
Proof.
  intros Hg Hwf Hmax Hs1 Hs2. unfold well_formed in Hwf.
  assert (Hlt : Cur r < wantFDs) by lia.
  rewrite (path_privileged_denied K NOFILE wantFDs k r k1 e1 k2 (Some e2) k3
             Hg Hlt Hmax Hs1 Hs2).
  cbn [fst snd kern trace].
  destruct (query_facts k r k1 Hg) as (_ & Hr & Hl1 & _).
  destruct (set_refused _ _ _ _ Hs1) as [Hl2 _].
  destruct (set_refused _ _ _ _ Hs2) as [Hl3 _].
  assert (Hk3 : limits k3 = limits k) by congruence.
  repeat split.
  - rewrite raise_failed_text. reflexivity.
  - congruence.
  - exact Hk3.
Qed.

(** C4.  When the wanted count exceeds the queried hard limit and the
    kernel accepts the set call for both limits, the function returns [nil]
    with that call as its only set call, and the soft and the hard limit in
    force both equal the wanted count. *)
Theorem privileged_raise_lifts_both wantFDs k r k1 k2 :
  get k = ((r, None), k1) ->
  well_formed r ->
  Max r < wantFDs ->
  set {| Cur := wantFDs; Max := wantFDs |} k1 = (None, k2) ->
  fst (run wantFDs k) = None /\
  trace (snd (run wantFDs k)) =
    [EvGetrlimit SiteQuery NOFILE;
     EvSetrlimit SitePrivileged NOFILE {| Cur := wantFDs; Max := wantFDs |};
     EvInfof (msg_set {| Cur := wantFDs; Max := wantFDs |})] /\
  set_pairs (trace (snd (run wantFDs k))) =
    [{| Cur := wantFDs; Max := wantFDs |}] /\
  kern (snd (run wantFDs k)) = k2 /\
  Cur (limits (kern (snd (run wantFDs k)))) = wantFDs /\
  Max (limits (kern (snd (run wantFDs k)))) = wantFDs.
Proof.
  intros Hg Hwf Hmax Hs. unfold well_formed in Hwf.
  assert (Hlt : Cur r < wantFDs) by lia.
  rewrite (path_privileged_ok K NOFILE wantFDs k r k1 k2 Hg Hlt Hmax Hs).
  cbn.
  destruct (set_accepted _ _ _ Hs) as [Hl _].
  rewrite Hl. cbn. repeat split.
Qed.

(** C5.  When the query fails, the function returns the error whose text
    ends in the text of the query's error, and the query is the only thing
    it did: no set call is made. *)
Theorem query_failure_is_fatal wantFDs k r e k1 :
  get k = ((r, Some e), k1) ->
  fst (run wantFDs k) =
    Some (mkErrorString
      ("failed to read rlimit for max file descriptors: " ++ Error e)) /\
  trace (snd (run wantFDs k)) = [EvGetrlimit SiteQuery NOFILE] /\
  set_pairs (trace (snd (run wantFDs k))) = [] /\
  kern (snd (run wantFDs k)) = k1.
Proof.
  intros Hg.
  rewrite (path_query_failed K NOFILE wantFDs k r e k1 Hg).
  cbn. repeat split.
Qed.

(** Every run follows one of the five paths. *)
Ltac explore wantFDs k :=
  unfold invoke, SetupFDLimits, raiseSoftOnly, bind, callGetrlimit,
    callSetrlimit, Infof, emit, ret, set_Cur; cbn;
  let r := fresh "r" in
  let k1 := fresh "k1" in
  let k2 := fresh "k2" in
  let k3 := fresh "k3" in
  let Hg := fresh "Hg" in
  let Hs1 := fresh "Hs1" in
  let Hs2 := fresh "Hs2" in
  destruct (get k) as [[r [?e|]] k1] eqn:Hg; cbn;
  [ | destruct (N.leb_spec wantFDs (Cur r)); cbn;
      [ | destruct (N.ltb_spec (Max r) wantFDs); cbn;
          [ destruct (set {| Cur := wantFDs; Max := wantFDs |} k1)
              as [[?e|] k2] eqn:Hs1; cbn;
            [ destruct (set {| Cur := wantFDs; Max := Max r |} k2)
                as [[?e|] k3] eqn:Hs2; cbn | ]
          | destruct (set {| Cur := wantFDs; Max := Max r |} k1)
              as [[?e|] k2] eqn:Hs1; cbn ] ] ].

(** C6.  Every pair the soft-limit-only site hands to the set call has the
    wanted count as its soft value and the queried hard limit as its hard
    value, whether or not a set call for both limits was made and refused
    before it. *)
Theorem soft_only_pair_keeps_queried_ceiling wantFDs k p :
  In p (set_pairs_at SiteSoftOnly (trace (snd (run wantFDs k)))) ->
  Cur p = wantFDs /\ Max p = Max (fst (fst (get k))).
Proof.
  explore wantFDs k; intros Hin;
    repeat (destruct Hin as [<- | Hin]; [split; reflexivity|]);
    contradiction.
Qed.

(** C7.  If an invocation returns [nil], the soft limit in force in the
    kernel state it left is at least the wanted count, and an invocation with
    the same wanted count against that state returns [nil] too, after the
    query and the "nothing to do" line alone: it makes no set call and the
    limits in force stay as the first invocation left them. *)
Theorem second_invocation_is_a_no_op wantFDs k :
  fst (run wantFDs k) = None ->
  let k' := kern (snd (run wantFDs k)) in
  wantFDs <= Cur (limits k') /\
  fst (run wantFDs k') = None /\
  trace (snd (run wantFDs k')) =
    [EvGetrlimit SiteQuery NOFILE;
     EvInfof (msg_nothing_to_do (Cur (limits k')) wantFDs)] /\
  set_pairs (trace (snd (run wantFDs k'))) = [] /\
  limits (kern (snd (run wantFDs k'))) = limits k'.
Proof.
  intros Hok k'.
  assert (Hk' : query_error k' = None /\ wantFDs <= Cur (limits k')).
  { subst k'. revert Hok. explore wantFDs k; intros Hok;
      try discriminate.
    - destruct (query_facts _ _ _ Hg) as (_ & Hr & Hl & Hq).
      split; [exact Hq|]. rewrite Hl, <- Hr. assumption.
    - destruct (query_facts _ _ _ Hg) as (_ & _ & _ & Hq).
      destruct (set_refused _ _ _ _ Hs1) as [_ Hq1].
      destruct (set_accepted _ _ _ Hs2) as [Hl2 Hq2].
      split; [congruence|]. rewrite Hl2. cbn. lia.
    - destruct (query_facts _ _ _ Hg) as (_ & _ & _ & Hq).
      destruct (set_accepted _ _ _ Hs1) as [Hl1 Hq1].
      split; [congruence|]. rewrite Hl1. cbn. lia.
    - destruct (query_facts _ _ _ Hg) as (_ & _ & _ & Hq).
      destruct (set_accepted _ _ _ Hs1) as [Hl1 Hq1].
      split; [congruence|]. rewrite Hl1. cbn. lia. }
  destruct Hk' as [Hq Hle].
  pose proof (query_succeeds k' Hq) as Hg'.
  split; [exact Hle|].
  rewrite (path_nothing_to_do K NOFILE wantFDs k' _ _ Hg' Hle).
  cbn. repeat split.
  apply (get_limits K V NOFILE Laws).
Qed.

(** C8.  A run enters the kernel through the query exactly once and
    through the set call at most twice, each call site is passed at most
    once, and the run makes no set call exactly when the query failed or
    the queried soft limit already covers the wanted count. *)
Theorem each_kernel_call_is_a_single_attempt wantFDs k :
  let tr := trace (snd (run wantFDs k)) in
  (count_gets tr = 1)%nat /\
  (count_sets tr <= 2)%nat /\
  (count_at SiteQuery tr <= 1)%nat /\
  (count_at SitePrivileged tr <= 1)%nat /\
  (count_at SiteSoftOnly tr <= 1)%nat /\
  (Nat.eqb (count_sets tr) 0 =
     match snd (fst (get k)) with
     | Some _ => true
     | None => wantFDs <=? Cur (fst (fst (get k)))
     end).
Proof.
  explore wantFDs k; repeat split; try lia; cbn;
    try reflexivity; symmetry;
    solve [ apply N.leb_le; assumption | apply N.leb_gt; assumption ].
Qed.

(** C9.  Every pair handed to the set call has the wanted count as its
    soft value, strictly above the queried soft limit, and a hard value at
    least the queried hard limit; and when the function returns [nil] the
    limits in force afterwards are, soft and hard, at least the limits in
    force before. *)
Theorem limits_are_never_lowered wantFDs k :
  (forall p, In p (set_pairs (trace (snd (run wantFDs k)))) ->
     Cur p = wantFDs /\
     Cur (fst (fst (get k))) < Cur p /\
     Max (fst (fst (get k))) <= Max p) /\
  (fst (run wantFDs k) = None ->
     Cur (limits k) <= Cur (limits (kern (snd (run wantFDs k)))) /\
     Max (limits k) <= Max (limits (kern (snd (run wantFDs k))))).
Proof.
  explore wantFDs k; split;
    try (intros p Hin;
         repeat (destruct Hin as [<- | Hin]; [cbn; lia|]);
         contradiction);
    intros Hok; try discriminate;
    destruct (query_facts _ _ _ Hg) as (_ & Hr & Hl & _).
  - rewrite Hl. lia.
  - destruct (set_refused _ _ _ _ Hs1) as [Hl1 _].
    destruct (set_accepted _ _ _ Hs2) as [Hl2 _].
    rewrite Hl2, <- Hr. cbn. lia.
  - destruct (set_accepted _ _ _ Hs1) as [Hl1 _].
    rewrite Hl1, <- Hr. cbn. lia.
  - destruct (set_accepted _ _ _ Hs1) as [Hl1 _].
    rewrite Hl1, <- Hr. cbn. lia.
Qed.

(** C10.  With a wanted count of zero, a run whose query succeeds returns
    [nil] after the query alone, whatever pair the query reported: an
    unsigned soft limit is never below zero. *)
Theorem zero_wanted_never_raises k r k1 :
  get k = ((r, None), k1) ->
  fst (run 0 k) = None /\
  trace (snd (run 0 k)) =
    [EvGetrlimit SiteQuery NOFILE;
     EvInfof (msg_nothing_to_do (Cur r) 0)] /\
  set_pairs (trace (snd (run 0 k))) = [] /\
  kern (snd (run 0 k)) = k1.
Proof.
  intros Hg.
  rewrite (path_nothing_to_do K NOFILE 0 k r k1 Hg (N.le_0_l (Cur r))).
  cbn. repeat split.
Qed.

End Claims.

(** ** The claims at work on the simulated kernel *)

(** C1 at soft limit 256, hard limit 1024 and a wanted count of 500. *)
Lemma soft_only_raise_within_ceiling_witness :
  (256 < 500 /\ 500 <= 1024) /\
  set_pairs_at SitePrivileged (trace (snd (Sim.run 500 Sim.unprivileged))) = []
  /\ set_pairs (trace (snd (Sim.run 500 Sim.unprivileged))) =
     [{| Cur := 500; Max := 1024 |}] /\
  fst (Sim.run 500 Sim.unprivileged) = None /\
  limits (kern (snd (Sim.run 500 Sim.unprivileged))) =
    {| Cur := 500; Max := 1024 |}.
Proof.
  split; [split; [reflexivity | discriminate]|].
  destruct (soft_only_raise_within_ceiling Sim.kernel Sim.RLIMIT_NOFILE
              Sim_laws 500 Sim.unprivileged {| Cur := 256; Max := 1024 |}
              Sim.unprivileged eq_refl eq_refl ltac:(discriminate))
    as (Hpriv & _ & Hsets & Hok).
  exact (conj Hpriv (conj Hsets (Hok eq_refl))).
Defined.

(** C2 at soft and hard limit 1024 and a wanted count of 500. *)
Lemma satisfied_limit_is_left_alone_witness :
  500 <= 1024 /\
  fst (Sim.run 500 Sim.saturated) = None /\
  set_pairs (trace (snd (Sim.run 500 Sim.saturated))) = [] /\
  limits (kern (snd (Sim.run 500 Sim.saturated))) =
    {| Cur := 1024; Max := 1024 |}.
Proof.
  split; [discriminate|].
  destruct (satisfied_limit_is_left_alone Sim.kernel Sim.RLIMIT_NOFILE
              Sim_laws 500 Sim.saturated {| Cur := 1024; Max := 1024 |}
              Sim.saturated eq_refl ltac:(discriminate))
    as (Hres & Hsets & _ & _ & Hlim).
  exact (conj Hres (conj Hsets Hlim)).
Defined.

(** C3 at soft limit 256, hard limit 1024, no capability and a wanted count
    of 2048. *)
Lemma raise_beyond_ceiling_denied_witness :
  (256 <= 1024 /\ 1024 < 2048) /\
  fst (Sim.run 2048 Sim.unprivileged) =
    Some (mkErrorString
      "failed to set rlimit {&{2048 1024}} for max file descriptors: invalid argument")
  /\ limits (kern (snd (Sim.run 2048 Sim.unprivileged))) =
     {| Cur := 256; Max := 1024 |}.
Proof.
  split; [split; [discriminate | reflexivity]|].
  destruct (raise_beyond_ceiling_denied Sim.kernel Sim.RLIMIT_NOFILE
              Sim_laws 2048 Sim.unprivileged {| Cur := 256; Max := 1024 |}
              Sim.unprivileged Sim.EPERM Sim.unprivileged Sim.EINVAL
              Sim.unprivileged
              eq_refl ltac:(discriminate) eq_refl eq_refl eq_refl)
    as (Hres & _ & Hlim & _).
  exact (conj Hres Hlim).
Defined.

(** C4 at soft limit 256, hard limit 1024, the capability held and a wanted
    count of 2048. *)
Lemma privileged_raise_lifts_both_witness :
  (256 <= 1024 /\ 1024 < 2048) /\
  fst (Sim.run 2048 Sim.privileged) = None /\
  set_pairs (trace (snd (Sim.run 2048 Sim.privileged))) =
    [{| Cur := 2048; Max := 2048 |}] /\
  Cur (limits (kern (snd (Sim.run 2048 Sim.privileged)))) = 2048 /\
  Max (limits (kern (snd (Sim.run 2048 Sim.privileged)))) = 2048.
Proof.
  split; [split; [discriminate | reflexivity]|].
  destruct (privileged_raise_lifts_both Sim.kernel Sim.RLIMIT_NOFILE
              Sim_laws 2048 Sim.privileged {| Cur := 256; Max := 1024 |}
              Sim.privileged
              (Sim.mkState {| Cur := 2048; Max := 2048 |} true None)
              eq_refl ltac:(discriminate) eq_refl eq_refl)
    as (Hres & _ & Hsets & _ & Hcur & Hmax).
  exact (conj Hres (conj Hsets (conj Hcur Hmax))).
Defined.

(** C5 at a kernel whose query answers [EINVAL]. *)
Lemma query_failure_is_fatal_witness :
  fst (Sim.run 500 Sim.unreadable) =
    Some (mkErrorString
      "failed to read rlimit for max file descriptors: invalid argument") /\
  set_pairs (trace (snd (Sim.run 500 Sim.unreadable))) = [].
Proof.
  destruct (query_failure_is_fatal Sim.kernel Sim.RLIMIT_NOFILE 500
              Sim.unreadable Rlimit_zero Sim.EINVAL Sim.unreadable eq_refl)
    as (Hres & _ & Hsets & _).
  exact (conj Hres Hsets).
Defined.

(** C6 after a refused raise of both limits: soft limit 256, hard limit 1024,
    no capability and a wanted count of 2048. *)
Lemma soft_only_pair_keeps_queried_ceiling_witness :
  set_pairs_at SitePrivileged (trace (snd (Sim.run 2048 Sim.unprivileged))) =
    [{| Cur := 2048; Max := 2048 |}] /\
  In {| Cur := 2048; Max := 1024 |}
     (set_pairs_at SiteSoftOnly (trace (snd (Sim.run 2048 Sim.unprivileged))))
  /\ Cur {| Cur := 2048; Max := 1024 |} = 2048 /\
  Max {| Cur := 2048; Max := 1024 |} =
    Max (fst (fst (Sim.getrlimit Sim.RLIMIT_NOFILE Sim.unprivileged))).
Proof.
  split; [reflexivity|].
  split; [left; reflexivity|].
  apply (soft_only_pair_keeps_queried_ceiling Sim.kernel Sim.RLIMIT_NOFILE
           2048 Sim.unprivileged {| Cur := 2048; Max := 1024 |}).
  left. reflexivity.
Defined.

(** C7 at soft limit 256, hard limit 1024 and a wanted count of 500: the
    first invocation raises the soft limit, the second finds it raised. *)
Lemma second_invocation_is_a_no_op_witness :
  fst (Sim.run 500 Sim.unprivileged) = None /\
  500 <= Cur (limits (kern (snd (Sim.run 500 Sim.unprivileged)))) /\
  fst (Sim.run 500 (kern (snd (Sim.run 500 Sim.unprivileged)))) = None /\
  set_pairs
    (trace (snd (Sim.run 500 (kern (snd (Sim.run 500 Sim.unprivileged))))))
    = [] /\
  limits (kern (snd (Sim.run 500 (kern (snd (Sim.run 500 Sim.unprivileged))))))
    = {| Cur := 500; Max := 1024 |}.
Proof.
  split; [reflexivity|].
  destruct (second_invocation_is_a_no_op Sim.kernel Sim.RLIMIT_NOFILE
              Sim_laws 500 Sim.unprivileged eq_refl)
    as (Hcur & Hres & _ & Hsets & Hlim).
  exact (conj Hcur (conj Hres (conj Hsets Hlim))).
Defined.

(** C9 at soft limit 256, hard limit 1024, the capability held and a wanted
    count of 2048. *)
Lemma limits_are_never_lowered_witness :
  fst (Sim.run 2048 Sim.privileged) = None /\
  Cur (limits (Sim.privileged : kstate Sim.kernel)) <=
    Cur (limits (kern (snd (Sim.run 2048 Sim.privileged)))) /\
  Max (limits (Sim.privileged : kstate Sim.kernel)) <=
    Max (limits (kern (snd (Sim.run 2048 Sim.privileged)))).
Proof.
  split; [reflexivity|].
  exact (proj2 (limits_are_never_lowered Sim.kernel Sim.RLIMIT_NOFILE
                  Sim_laws 2048 Sim.privileged) eq_refl).
Defined.

(** C10 at soft limit 256 and hard limit 1024. *)
Lemma zero_wanted_never_raises_witness :
  fst (Sim.run 0 Sim.unprivileged) = None /\
  set_pairs (trace (snd (Sim.run 0 Sim.unprivileged))) = [] /\
  kern (snd (Sim.run 0 Sim.unprivileged)) = Sim.unprivileged.
Proof.
  destruct (zero_wanted_never_raises Sim.kernel Sim.RLIMIT_NOFILE
              Sim.unprivileged {| Cur := 256; Max := 1024 |} Sim.unprivileged
              eq_refl)
    as (Hres & _ & Hsets & Hkern).
  exact (conj Hres (conj Hsets Hkern)).
Defined.

(** ** Beyond the claims: what else the code of [SetupFDLimits] shows *)

(** The scripted stand-in is a kernel in the specification's sense. *)
Lemma Scripted_laws :
  PosixLaws Scripted.kernel Scripted.view Sim.RLIMIT_NOFILE.
Proof.
  split; cbn; unfold Scripted.getrlimit, Scripted.setrlimit; cbn;
    try reflexivity.
  - intros r [p [|[e|] rest]]; cbn; intros Hr;
      [reflexivity | discriminate | reflexivity].
  - intros r [p [|[e'|] rest]] e; cbn; intros Hr;
      [discriminate | reflexivity | discriminate].
Qed.

(** The simulated kernel validates the pairs it is handed. *)
Lemma Sim_rejects_invalid : RejectsInvalid Sim.kernel Sim.RLIMIT_NOFILE.
Proof.
  intros r k Hlt. cbn. unfold Sim.setrlimit. cbn.
  apply N.ltb_lt in Hlt. rewrite Hlt. discriminate.
Qed.

Section Beyond.

Context {E : Type} `{error E}.
Variable K : Kernel E.
Variable NOFILE : Z.
Context {V : RlimitView K}.
Hypothesis Laws : PosixLaws K V NOFILE.

Local Abbreviation get := (syscallGetrlimit K NOFILE).
Local Abbreviation set := (syscallSetrlimit K NOFILE).
Local Abbreviation run := (invoke K NOFILE).

Ltac walk wantFDs k :=
  unfold invoke, SetupFDLimits, raiseSoftOnly, bind, callGetrlimit,
    callSetrlimit, Infof, emit, ret, set_Cur; cbn;
  let r := fresh "r" in
  let k1 := fresh "k1" in
  let k2 := fresh "k2" in
  let k3 := fresh "k3" in
  let Hg := fresh "Hg" in
  let Hs1 := fresh "Hs1" in
  let Hs2 := fresh "Hs2" in
  let Hc := fresh "Hc" in
  let Hm := fresh "Hm" in
  destruct (get k) as [[r [?e|]] k1] eqn:Hg; cbn;
  [ | destruct (N.leb_spec wantFDs (Cur r)) as [Hc|Hc]; cbn;
      [ | destruct (N.ltb_spec (Max r) wantFDs) as [Hm|Hm]; cbn;
          [ destruct (set {| Cur := wantFDs; Max := wantFDs |} k1)
              as [[?e|] k2] eqn:Hs1; cbn;
            [ destruct (set {| Cur := wantFDs; Max := Max r |} k2)
                as [[?e|] k3] eqn:Hs2; cbn | ]
          | destruct (set {| Cur := wantFDs; Max := Max r |} k1)
              as [[?e|] k2] eqn:Hs1; cbn ] ] ].

(** What a [nil] return tells about the kernel it leaves behind. *)
Lemma nil_return_facts wantFDs k :
  fst (run wantFDs k) = None ->
  query_error (kern (snd (run wantFDs k))) = None /\
  Cur (limits (kern (snd (run wantFDs k)))) = N.max (Cur (limits k)) wantFDs /\
  (Max (limits (kern (snd (run wantFDs k)))) = Max (limits k) \/
   Max (limits (kern (snd (run wantFDs k)))) = wantFDs /\
   Max (limits k) < wantFDs).
Proof.
  walk wantFDs k; intros Hok; try discriminate;
    destruct (query_facts K NOFILE Laws _ _ _ Hg) as (_ & Hr & Hl & Hq).
  - rewrite Hl, <- Hr. repeat split; [exact Hq | lia | now left].
  - destruct (set_refused K NOFILE Laws _ _ _ _ Hs1) as [_ Hq1].
    destruct (set_accepted K NOFILE Laws _ _ _ Hs2) as [Hl2 Hq2].
    rewrite Hl2, <- Hr. cbn. repeat split; [congruence | lia | now left].
  - destruct (set_accepted K NOFILE Laws _ _ _ Hs1) as [Hl1 Hq1].
    rewrite Hl1, <- Hr. cbn. repeat split; [congruence | lia | right; lia].
  - destruct (set_accepted K NOFILE Laws _ _ _ Hs1) as [Hl1 Hq1].
    rewrite Hl1, <- Hr. cbn. repeat split; [congruence | lia | now left].
Qed.

(** X1.  On a [nil] return the soft limit in force is the larger of the
    former soft limit and the wanted count, so it is at least the wanted
    count, as the function's comment promises; the hard limit in force is
    the former one, or the wanted count where that is larger. *)
Theorem nil_return_ensures_wanted_count wantFDs k :
  fst (run wantFDs k) = None ->
  wantFDs <= Cur (limits (kern (snd (run wantFDs k)))) /\
  Cur (limits (kern (snd (run wantFDs k)))) = N.max (Cur (limits k)) wantFDs /\
  (Max (limits (kern (snd (run wantFDs k)))) = Max (limits k) \/
   Max (limits (kern (snd (run wantFDs k)))) = wantFDs /\
   Max (limits k) < wantFDs).
Proof.
  intros Hok.
  destruct (nil_return_facts wantFDs k Hok) as (_ & Hcur & Hmax).
  split; [rewrite Hcur; lia | split; assumption].
Qed.

(** X2.  When the function returns an error, whichever it is, the limits in
    force are the ones before the call. *)
Theorem error_return_leaves_limits_untouched wantFDs k err :
  fst (run wantFDs k) = Some err ->
  limits (kern (snd (run wantFDs k))) = limits k.
Proof.
  walk wantFDs k; intros Hret; try discriminate.
  - pose proof (get_limits K V NOFILE Laws k) as Hl.
    rewrite Hg in Hl. exact Hl.
  - destruct (query_facts K NOFILE Laws _ _ _ Hg) as (_ & _ & Hl & _).
    destruct (set_refused K NOFILE Laws _ _ _ _ Hs1) as [Hl1 _].
    destruct (set_refused K NOFILE Laws _ _ _ _ Hs2) as [Hl2 _].
    congruence.
  - destruct (query_facts K NOFILE Laws _ _ _ Hg) as (_ & _ & Hl & _).
    destruct (set_refused K NOFILE Laws _ _ _ _ Hs1) as [Hl1 _].
    congruence.
Qed.

(** X3.  An error the function returns is one of two: the read failure,
    carrying the text of the query's error, after no set call at all; or the
    set failure, naming the pair of the wanted count and the queried hard
    limit and carrying the text of an error that the kernel answered to that
    very pair, which is the last pair the run handed over. *)
Theorem every_error_names_its_cause wantFDs k err :
  fst (run wantFDs k) = Some err ->
  (exists e,
     snd (fst (get k)) = Some e /\
     Error err =
       "failed to read rlimit for max file descriptors: " ++ Error e /\
     set_pairs (trace (snd (run wantFDs k))) = []) \/
  (exists e k2,
     snd (fst (get k)) = None /\
     fst (set {| Cur := wantFDs; Max := Max (fst (fst (get k))) |} k2)
       = Some e /\
     Error err =
       "failed to set rlimit {&{" ++ Fmt.d wantFDs ++ " "
       ++ Fmt.d (Max (fst (fst (get k))))
       ++ "}} for max file descriptors: " ++ Error e /\
     last (set_pairs (trace (snd (run wantFDs k)))) Rlimit_zero =
       {| Cur := wantFDs; Max := Max (fst (fst (get k))) |}).
Proof.
  walk wantFDs k; intros Hret; try discriminate;
    injection Hret as <-.
  - left. exists e. repeat split.
  - right. exists e0, k2. rewrite Hs2.
    repeat split. apply (raise_failed_text {| Cur := wantFDs; Max := Max r |}).
  - right. exists e, k1. rewrite Hs1.
    repeat split. apply (raise_failed_text {| Cur := wantFDs; Max := Max r |}).
Qed.

(** X4.  A refused raise of both limits is no error of its own: when the
    set call for the soft limit alone is accepted after it, the function
    returns [nil], logs the pair it set, and the first call's error shows up
    neither in the result nor in the log. *)
Theorem privileged_refusal_is_swallowed wantFDs k r k1 e1 k2 k3 :
  get k = ((r, None), k1) ->
  well_formed r ->
  Max r < wantFDs ->
  set {| Cur := wantFDs; Max := wantFDs |} k1 = (Some e1, k2) ->
  set {| Cur := wantFDs; Max := Max r |} k2 = (None, k3) ->
  fst (run wantFDs k) = None /\
  trace (snd (run wantFDs k)) =
    [EvGetrlimit SiteQuery NOFILE;
     EvSetrlimit SitePrivileged NOFILE {| Cur := wantFDs; Max := wantFDs |};
     EvSetrlimit SiteSoftOnly NOFILE {| Cur := wantFDs; Max := Max r |};
     EvInfof (msg_set {| Cur := wantFDs; Max := Max r |})] /\
  limits (kern (snd (run wantFDs k))) = {| Cur := wantFDs; Max := Max r |}.
Proof.
  intros Hg Hwf Hmax Hs1 Hs2. unfold well_formed in Hwf.
  assert (Hlt : Cur r < wantFDs) by lia.
  rewrite (path_privileged_denied K NOFILE wantFDs k r k1 e1 k2 None k3
             Hg Hlt Hmax Hs1 Hs2).
  cbn [fst snd kern trace app].
  repeat split.
  apply (set_accepted K NOFILE Laws _ _ _ Hs2).
Qed.

(** X5.  When the wanted count is within the queried hard limit and the
    kernel refuses the one set call all the same, the function gives up at
    once: it returns the set failure with that call's error, makes no other
    set call, and the limits in force are the ones before the call. *)
Theorem refusal_within_ceiling_is_final wantFDs k r k1 e k2 :
  get k = ((r, None), k1) ->
  Cur r < wantFDs ->
  wantFDs <= Max r ->
  set {| Cur := wantFDs; Max := Max r |} k1 = (Some e, k2) ->
  fst (run wantFDs k) =
    Some (mkErrorString
      ("failed to set rlimit {&{" ++ Fmt.d wantFDs ++ " " ++ Fmt.d (Max r)
       ++ "}} for max file descriptors: " ++ Error e)) /\
  trace (snd (run wantFDs k)) =
    [EvGetrlimit SiteQuery NOFILE;
     EvSetrlimit SiteSoftOnly NOFILE {| Cur := wantFDs; Max := Max r |}] /\
  limits (kern (snd (run wantFDs k))) = limits k.
Proof.
  intros Hg Hlt Hle Hs.
  rewrite (path_soft_only K NOFILE wantFDs k r k1 (Some e) k2 Hg Hlt Hle Hs).
  cbn [fst snd kern trace app].
  split; [|split].
  - rewrite raise_failed_text. reflexivity.
  - reflexivity.
  - destruct (query_facts K NOFILE Laws _ _ _ Hg) as (_ & _ & Hl & _).
    destruct (set_refused K NOFILE Laws _ _ _ _ Hs) as [Hl1 _].
    congruence.
Qed.

(** X6.  Whenever a run reaches the soft-limit-only set call after a set
    call for both limits, the pair it hands over has a soft value above its
    hard value: the fallback asks for more than the ceiling it names. *)
Theorem fallback_pair_exceeds_its_ceiling wantFDs k p :
  In p (set_pairs_at SiteSoftOnly (trace (snd (run wantFDs k)))) ->
  set_pairs_at SitePrivileged (trace (snd (run wantFDs k))) <> [] ->
  Max p < Cur p.
Proof.
  walk wantFDs k; intros Hin Hpriv;
    try contradiction;
    try (exfalso; apply Hpriv; reflexivity);
    destruct Hin as [<- | []]; cbn; assumption.
Qed.

(** X7.  On a kernel that refuses a pair whose soft value exceeds its hard
    value, a wanted count beyond the queried hard limit is met exactly when
    the set call for both limits is accepted: after a refusal the fallback
    cannot succeed and the function returns the set failure. *)
Theorem beyond_ceiling_privileged_call_decides wantFDs k r k1 :
  RejectsInvalid K NOFILE ->
  get k = ((r, None), k1) ->
  well_formed r ->
  Max r < wantFDs ->
  (fst (run wantFDs k) = None <->
   fst (set {| Cur := wantFDs; Max := wantFDs |} k1) = None).
Proof.
  intros Hvalid Hg Hwf Hmax. unfold well_formed in Hwf.
  assert (Hlt : Cur r < wantFDs) by lia.
  destruct (set {| Cur := wantFDs; Max := wantFDs |} k1)
    as [[e1|] k2] eqn:Hs1.
  - destruct (set {| Cur := wantFDs; Max := Max r |} k2)
      as [err k3] eqn:Hs2.
    pose proof (Hvalid {| Cur := wantFDs; Max := Max r |} k2 Hmax) as Hrej.
    rewrite Hs2 in Hrej. cbn in Hrej.
    rewrite (path_privileged_denied K NOFILE wantFDs k r k1 e1 k2 err k3
               Hg Hlt Hmax Hs1 Hs2).
    cbn [fst]. destruct err as [e2|]; [|contradiction].
    split; discriminate.
  - rewrite (path_privileged_ok K NOFILE wantFDs k r k1 k2 Hg Hlt Hmax Hs1).
    cbn [fst]. split; reflexivity.
Qed.

(** X8.  A run that returns [nil] writes exactly one log line, and a run
    that returns an error writes none. *)
Theorem nil_is_logged_once_errors_never wantFDs k :
  count_logs (trace (snd (run wantFDs k))) =
  match fst (run wantFDs k) with
  | None => 1%nat
  | Some _ => 0%nat
  end.
Proof. walk wantFDs k; reflexivity. Qed.

(** X9.  After an invocation that returned [nil], an invocation with any
    wanted count up to the first one returns [nil] without a set call and
    leaves the limits in force alone. *)
Theorem smaller_request_after_nil_is_a_no_op wantFDs wantFDs' k :
  fst (run wantFDs k) = None ->
  wantFDs' <= wantFDs ->
  let k' := kern (snd (run wantFDs k)) in
  fst (run wantFDs' k') = None /\
  set_pairs (trace (snd (run wantFDs' k'))) = [] /\
  limits (kern (snd (run wantFDs' k'))) = limits k'.
Proof.
  intros Hok Hle k'.
  destruct (nil_return_facts wantFDs k Hok) as (Hq & Hcur & _).
  fold k' in Hq, Hcur.
  pose proof (query_succeeds K NOFILE Laws k' Hq) as Hg'.
  assert (Hle' : wantFDs' <= Cur (limits k')) by (rewrite Hcur; lia).
  rewrite (path_nothing_to_do K NOFILE wantFDs' k' _ _ Hg' Hle').
  cbn. repeat split.
  apply (get_limits K V NOFILE Laws).
Qed.

(** X10.  Two invocations in a row that both return [nil] leave a soft
    limit that covers both wanted counts, whichever was asked first: it is
    the largest of the first soft limit and the two counts. *)
Theorem successive_raises_accumulate wantFDs1 wantFDs2 k :
  fst (run wantFDs1 k) = None ->
  let k' := kern (snd (run wantFDs1 k)) in
  fst (run wantFDs2 k') = None ->
  let k'' := kern (snd (run wantFDs2 k')) in
  wantFDs1 <= Cur (limits k'') /\
  wantFDs2 <= Cur (limits k'') /\
  Cur (limits k'') = N.max (Cur (limits k)) (N.max wantFDs1 wantFDs2).
Proof.
  intros Hok1 k' Hok2 k''.
  destruct (nil_return_facts wantFDs1 k Hok1) as (_ & Hcur1 & _).
  destruct (nil_return_facts wantFDs2 k' Hok2) as (_ & Hcur2 & _).
  fold k' in Hcur1. fold k'' in Hcur2. lia.
Qed.

(** X11.  Every run is one of seven, told apart by the kernel's answers.
    A failing query ends the run with the read failure.  After a successful
    query the run is the "nothing to do" line and [nil] when the queried soft
    limit covers the wanted count.  Otherwise the set calls of one of the two
    raises follow, the one for both limits only when the wanted count is
    beyond the queried hard limit, and the run ends in the line that logs the
    pair and [nil] exactly when its last set call was accepted, and in the
    set failure carrying that call's error when it was refused.  Every kernel
    call names the file-descriptor resource. *)
Theorem every_run_is_one_of_seven wantFDs k :
  let r := fst (fst (get k)) in
  let k1 := snd (get k) in
  let res := fst (run wantFDs k) in
  let tr := trace (snd (run wantFDs k)) in
  let both := {| Cur := wantFDs; Max := wantFDs |} in
  let soft := {| Cur := wantFDs; Max := Max r |} in
  let k2 := snd (set both k1) in
  let G := EvGetrlimit SiteQuery NOFILE in
  let P := EvSetrlimit SitePrivileged NOFILE both in
  let S := EvSetrlimit SiteSoftOnly NOFILE soft in
  (exists e, snd (fst (get k)) = Some e /\
     res = Some (mkErrorString (msg_query_failed e)) /\ tr = [G]) \/
  (snd (fst (get k)) = None /\ wantFDs <= Cur r /\
   res = None /\ tr = [G; EvInfof (msg_nothing_to_do (Cur r) wantFDs)]) \/
  (snd (fst (get k)) = None /\ Cur r < wantFDs /\ Max r < wantFDs /\
   fst (set both k1) = None /\
   res = None /\ tr = [G; P; EvInfof (msg_set both)]) \/
  (snd (fst (get k)) = None /\ Cur r < wantFDs /\ Max r < wantFDs /\
   (exists e1, fst (set both k1) = Some e1) /\
   fst (set soft k2) = None /\
   res = None /\ tr = [G; P; S; EvInfof (msg_set soft)]) \/
  (snd (fst (get k)) = None /\ Cur r < wantFDs /\ Max r < wantFDs /\
   (exists e1, fst (set both k1) = Some e1) /\
   exists e2, fst (set soft k2) = Some e2 /\
     res = Some (mkErrorString (msg_raise_failed soft e2)) /\
     tr = [G; P; S]) \/
  (snd (fst (get k)) = None /\ Cur r < wantFDs /\ wantFDs <= Max r /\
   fst (set soft k1) = None /\
   res = None /\ tr = [G; S; EvInfof (msg_set soft)]) \/
  (snd (fst (get k)) = None /\ Cur r < wantFDs /\ wantFDs <= Max r /\
   exists e, fst (set soft k1) = Some e /\
     res = Some (mkErrorString (msg_raise_failed soft e)) /\
     tr = [G; S]).
Proof.
  walk wantFDs k.
  - left. exists e. repeat split.
  - right; left. repeat split; assumption.
  - do 4 right; left. repeat split; try assumption.
    + exists e. reflexivity.
    + exists e0. repeat split.
  - do 3 right; left. repeat split; try assumption. exists e. reflexivity.
  - do 2 right; left. repeat split; assumption.
  - do 6 right. repeat split; try assumption. exists e. repeat split.
  - do 5 right; left. repeat split; assumption.
Qed.

End Beyond.

(** ** The further properties at work on the two stand-ins *)

(** X1 with the capability held: soft limit 256, hard limit 1024, wanted
    count 2048. *)
Lemma nil_return_ensures_wanted_count_witness :
  fst (Sim.run 2048 Sim.privileged) = None /\
  2048 <= Cur (limits (kern (snd (Sim.run 2048 Sim.privileged)))) /\
  Cur (limits (kern (snd (Sim.run 2048 Sim.privileged)))) = N.max 256 2048.
Proof.
  split; [reflexivity|].
  destruct (nil_return_ensures_wanted_count Sim.kernel Sim.RLIMIT_NOFILE
              Sim_laws 2048 Sim.privileged eq_refl) as (Hle & Hcur & _).
  exact (conj Hle Hcur).
Defined.

(** X2 without the capability: soft limit 256, hard limit 1024, wanted count
    2048. *)
Lemma error_return_leaves_limits_untouched_witness :
  fst (Sim.run 2048 Sim.unprivileged) =
    Some (mkErrorString
      "failed to set rlimit {&{2048 1024}} for max file descriptors: invalid argument")
  /\ limits (kern (snd (Sim.run 2048 Sim.unprivileged))) =
     {| Cur := 256; Max := 1024 |}.
Proof.
  split; [reflexivity|].
  exact (error_return_leaves_limits_untouched Sim.kernel Sim.RLIMIT_NOFILE
           Sim_laws 2048 Sim.unprivileged _ eq_refl).
Defined.

(** X3 at a kernel whose query answers [EINVAL]. *)
Lemma every_error_names_its_cause_witness :
  fst (Sim.run 500 Sim.unreadable) =
    Some (mkErrorString
      "failed to read rlimit for max file descriptors: invalid argument") /\
  ((exists e,
      snd (fst (Sim.getrlimit Sim.RLIMIT_NOFILE Sim.unreadable)) = Some e /\
      "failed to read rlimit for max file descriptors: invalid argument" =
        "failed to read rlimit for max file descriptors: " ++ Error e /\
      set_pairs (trace (snd (Sim.run 500 Sim.unreadable))) = []) \/
   (exists e k2,
      snd (fst (Sim.getrlimit Sim.RLIMIT_NOFILE Sim.unreadable)) = None /\
      fst (Sim.setrlimit Sim.RLIMIT_NOFILE {| Cur := 500; Max := 0 |} k2)
        = Some e /\
      "failed to read rlimit for max file descriptors: invalid argument" =
        "failed to set rlimit {&{500 0}} for max file descriptors: "
        ++ Error e /\
      last (set_pairs (trace (snd (Sim.run 500 Sim.unreadable)))) Rlimit_zero
        = {| Cur := 500; Max := 0 |})).
Proof.
  split; [reflexivity|].
  exact (every_error_names_its_cause Sim.kernel Sim.RLIMIT_NOFILE 500
           Sim.unreadable _ eq_refl).
Defined.

(** X4 at a stand-in that refuses the first set call with [EPERM] and
    accepts the second: soft limit 256, hard limit 1024, wanted count 2048. *)
Lemma privileged_refusal_is_swallowed_witness :
  (256 <= 1024 /\ 1024 < 2048) /\
  fst (Scripted.run 2048
         (Scripted.mkState {| Cur := 256; Max := 1024 |}
            [Some Sim.EPERM; None])) = None /\
  Scripted.pair
    (kern (snd (Scripted.run 2048
                  (Scripted.mkState {| Cur := 256; Max := 1024 |}
                     [Some Sim.EPERM; None])))) =
    {| Cur := 2048; Max := 1024 |}.
Proof.
  split; [split; [discriminate | reflexivity]|].
  destruct (@privileged_refusal_is_swallowed _ _ Scripted.kernel
              Sim.RLIMIT_NOFILE Scripted.view Scripted_laws 2048
              (Scripted.mkState {| Cur := 256; Max := 1024 |}
                 [Some Sim.EPERM; None])
              {| Cur := 256; Max := 1024 |}
              (Scripted.mkState {| Cur := 256; Max := 1024 |}
                 [Some Sim.EPERM; None])
              Sim.EPERM
              (Scripted.mkState {| Cur := 256; Max := 1024 |} [None])
              (Scripted.mkState {| Cur := 2048; Max := 1024 |} [])
              eq_refl ltac:(discriminate) eq_refl eq_refl eq_refl)
    as (Hres & _ & Hlim).
  exact (conj Hres Hlim).
Defined.

(** X5 at a stand-in that refuses the first set call with [EPERM]: soft limit
    256, hard limit 1024, wanted count 500. *)
Lemma refusal_within_ceiling_is_final_witness :
  (256 < 500 /\ 500 <= 1024) /\
  fst (Scripted.run 500
         (Scripted.mkState {| Cur := 256; Max := 1024 |} [Some Sim.EPERM])) =
    Some (mkErrorString
      "failed to set rlimit {&{500 1024}} for max file descriptors: operation not permitted")
  /\ set_pairs
       (trace (snd (Scripted.run 500
                      (Scripted.mkState {| Cur := 256; Max := 1024 |}
                         [Some Sim.EPERM])))) =
     [{| Cur := 500; Max := 1024 |}].
Proof.
  split; [split; [reflexivity | discriminate]|].
  destruct (@refusal_within_ceiling_is_final _ _ Scripted.kernel
              Sim.RLIMIT_NOFILE Scripted.view Scripted_laws 500
              (Scripted.mkState {| Cur := 256; Max := 1024 |}
                 [Some Sim.EPERM])
              {| Cur := 256; Max := 1024 |}
              (Scripted.mkState {| Cur := 256; Max := 1024 |}
                 [Some Sim.EPERM])
              Sim.EPERM
              (Scripted.mkState {| Cur := 256; Max := 1024 |} [])
              eq_refl eq_refl ltac:(discriminate) eq_refl)
    as (Hres & Htr & _).
  exact (conj Hres (f_equal set_pairs Htr)).
Defined.

(** X6 without the capability: soft limit 256, hard limit 1024, wanted count
    2048. *)
Lemma fallback_pair_exceeds_its_ceiling_witness :
  set_pairs_at SiteSoftOnly (trace (snd (Sim.run 2048 Sim.unprivileged))) =
    [{| Cur := 2048; Max := 1024 |}] /\
  set_pairs_at SitePrivileged (trace (snd (Sim.run 2048 Sim.unprivileged))) =
    [{| Cur := 2048; Max := 2048 |}] /\
  Max {| Cur := 2048; Max := 1024 |} < Cur {| Cur := 2048; Max := 1024 |}.
Proof.
  split; [reflexivity|]. split; [reflexivity|].
  apply (fallback_pair_exceeds_its_ceiling Sim.kernel Sim.RLIMIT_NOFILE
           2048 Sim.unprivileged {| Cur := 2048; Max := 1024 |}).
  - left. reflexivity.
  - discriminate.
Defined.

(** X7 on the simulated kernel, soft limit 256, hard limit 1024 and wanted
    count 2048, with the capability held. *)
Lemma beyond_ceiling_privileged_call_decides_witness :
  (256 <= 1024 /\ 1024 < 2048) /\
  (fst (Sim.run 2048 Sim.privileged) = None <->
   fst (Sim.setrlimit Sim.RLIMIT_NOFILE {| Cur := 2048; Max := 2048 |}
          Sim.privileged) = None).
Proof.
  split; [split; [discriminate | reflexivity]|].
  exact (beyond_ceiling_privileged_call_decides Sim.kernel Sim.RLIMIT_NOFILE
           2048 Sim.privileged {| Cur := 256; Max := 1024 |} Sim.privileged
           Sim_rejects_invalid eq_refl ltac:(discriminate) eq_refl).
Defined.

(** X9 at soft limit 256 and hard limit 1024: a wanted count of 500, then
    one of 300. *)
Lemma smaller_request_after_nil_is_a_no_op_witness :
  (fst (Sim.run 500 Sim.unprivileged) = None /\ 300 <= 500) /\
  fst (Sim.run 300 (kern (snd (Sim.run 500 Sim.unprivileged)))) = None /\
  set_pairs
    (trace (snd (Sim.run 300 (kern (snd (Sim.run 500 Sim.unprivileged))))))
    = [] /\
  limits (kern (snd (Sim.run 300 (kern (snd (Sim.run 500 Sim.unprivileged))))))
    = {| Cur := 500; Max := 1024 |}.
Proof.
  split; [split; [reflexivity | discriminate]|].
  exact (smaller_request_after_nil_is_a_no_op Sim.kernel Sim.RLIMIT_NOFILE
           Sim_laws 500 300 Sim.unprivileged eq_refl ltac:(discriminate)).
Defined.

(** X10 at soft limit 256 and hard limit 1024: a wanted count of 800, then
    one of 500. *)
Lemma successive_raises_accumulate_witness :
  (fst (Sim.run 800 Sim.unprivileged) = None /\
   fst (Sim.run 500 (kern (snd (Sim.run 800 Sim.unprivileged)))) = None) /\
  800 <= Cur (limits (kern (snd (Sim.run 500
                (kern (snd (Sim.run 800 Sim.unprivileged))))))) /\
  500 <= Cur (limits (kern (snd (Sim.run 500
                (kern (snd (Sim.run 800 Sim.unprivileged))))))) /\
  Cur (limits (kern (snd (Sim.run 500
         (kern (snd (Sim.run 800 Sim.unprivileged))))))) =
    N.max 256 (N.max 800 500).
Proof.
  split; [split; reflexivity|].
  exact (successive_raises_accumulate Sim.kernel Sim.RLIMIT_NOFILE
           Sim_laws 800 500 Sim.unprivileged eq_refl eq_refl).
Defined.
